(** * DCM130: the Scopetek vendor-request session

  A shallow embedding of [DCM130.py]: the request enumeration, the
  [ScopetekDevice.request] method, the [_error] helper and the [main]
  bring-up script.

  Python integers are [Z], the bytes of a buffer are [Byte.byte], the
  [Optional] arguments are [option].  The USB library (usb1) is an external
  collaborator: opening the device and the control transfer are parameters
  of the development.  Effects (the transfers, the pauses, the log calls,
  what is printed) are recorded in a trace carried by the world, and a
  raised exception is the left injection of the result. *)

From Stdlib Require Import ZArith List String Ascii Bool QArith Lia Lqa.
From Stdlib Require Import DecimalString DecimalPos DecimalZ.
From Stdlib.Strings Require Import Byte.
Import ListNotations.
Local Open Scope Z_scope.

(** ** Enumerations (lines 27-35) *)

Inductive _Request := CONTROL | REG_READ | REG_WRITE.

Inductive _Registers := SIZE_X | SIZE_Y.

(** What a caller can pass as the [request] argument: the annotation asks for
  a [_Request], Python does not enforce it. *)
Inductive pyobj :=
| Request_member (r : _Request)
| Registers_member (r : _Registers)
| PyInt (z : Z)
| PyStr (s : string)
| PyNone.

Inductive exception :=
| TypeError (msg : string)
| ValueError (msg : string)
| AttributeError (msg : string)
| RuntimeError (msg : string)
| USBError (code : Z)
| SystemExit (code : Z).

(** The three shapes of [logger.debug] call in [request]; the hexadecimal
  rendering of the record is left to the logging module. *)
Inductive log_record :=
| LogWrite (index value : Z) (data : list Z)
| LogSend (index value : Z)
| LogRead (index value : Z) (data : list Z).

Inductive event :=
| EvBasicConfig
| EvDebug (r : log_record)
| EvTransfer (request_type request value index : Z)
           (buffer : list byte) (length timeout : Z)
| EvSleep (secs : Q)
| EvPrint (line : string).

Module Enum.

(** The [.value] of a [_Request] member. *)
Definition value (r : _Request) : Z :=
  match r with
  | CONTROL => 1
  | REG_READ => 10
  | REG_WRITE => 11
  end.

Definition register (r : _Registers) : Z :=
  match r with
  | SIZE_X => 0x0022
  | SIZE_Y => 0x0023
  end.

(** [request.value] on an arbitrary object. *)
Definition getattr_value (o : pyobj) : exception + Z :=
  match o with
  | Request_member r => inr (value r)
  | Registers_member r => inr (register r)
  | _ => inl (AttributeError "value")
  end.

End Enum.

(** ** Python built-ins used by [request] *)

Module Py.

Definition byte_of_int (z : Z) : option byte :=
  if (0 <=? z) && (z <? 256) then Byte.of_N (Z.to_N z) else None.

(** [bytearray(iterable_of_ints)] *)
Fixpoint bytearray_of_list (l : list Z) : exception + list byte :=
  match l with
  | [] => inr []
  | z :: l' =>
      match byte_of_int z with
      | None => inl (ValueError "byte must be in range(0, 256)")
      | Some b =>
          match bytearray_of_list l' with
          | inl e => inl e
          | inr bs => inr (b :: bs)
          end
      end
  end.

(** [bytearray(int)].  Memory is taken as unbounded: the OverflowError and
  MemoryError of a size no machine can hold are left out. *)
Definition bytearray_of_size (n : Z) : exception + list byte :=
  if n <? 0 then inl (ValueError "negative count")
  else inr (repeat x00 (Z.to_nat n)).

(** Truth value of an [Optional[List[int]]]: [None] and [[]] are false. *)
Definition truthy (data : option (list Z)) : bool :=
  match data with
  | Some (_ :: _) => true
  | _ => false
  end.

Definition elements (data : option (list Z)) : list Z :=
  match data with
  | Some l => l
  | None => []
  end.

(** [bytearray(data if data else size)] *)
Definition bytearray (data : option (list Z)) (size : Z)
  : exception + list byte :=
  if truthy data then bytearray_of_list (elements data)
  else bytearray_of_size size.

(** [ctypes.sizeof] of a byte array. *)
Definition sizeof (buffer : list byte) : Z := Z.of_nat (List.length buffer).

(** [int.from_bytes(byte, byteorder='big')] on one element of the buffer. *)
Definition int_from_bytes (b : byte) : Z := Z.of_N (Byte.to_N b).

(** [str(int)], as used by the f-string of the error message. *)
Definition str (z : Z) : string := NilZero.string_of_int (Z.to_int z).

(** [needle in haystack] on strings. *)
Fixpoint contains (needle haystack : string) : bool :=
  match haystack with
  | EmptyString => String.prefix needle EmptyString
  | String _ rest =>
      String.prefix needle haystack || contains needle rest
  end.

End Py.

(** Bit 7 of [bmRequestType] is the direction of the data stage: set for
  device-to-host.  (The source only has it as the comments of lines 47 and
  50.) *)
Definition device_to_host (request_type : Z) : bool := Z.testbit request_type 7.

(** The pause after each transfer, in seconds (line 77). *)
Definition SETTLE : Q := 2 # 1000.

(** ** Reading a trace *)

Definition is_transfer (e : event) : bool :=
  match e with
  | EvTransfer _ _ _ _ _ _ _ => true
  | _ => false
  end.

(** The transport calls of a trace, in order. *)
Definition transfers (t : list event) : list event := filter is_transfer t.

(** The time spent in [time.sleep] along a trace, in seconds: a lower bound of
  the time the trace takes. *)
Fixpoint slept (t : list event) : Q :=
  match t with
  | [] => 0%Q
  | EvSleep secs :: t' => (secs + slept t')%Q
  | _ :: t' => slept t'
  end.



(** ** The world

  The state of the USB side, whether standard output is a terminal, and the
  trace of the effects so far. *)
Record world (Host : Type) := World {
  host : Host;
  isatty : bool;           (* sys.stdout.isatty() *)
  trace : list event
}.

Arguments World {Host} _ _ _.
Arguments host {Host} _.
Arguments isatty {Host} _.
Arguments trace {Host} _.

(** ** A bench double of the USB side

  Used to run the model on concrete inputs: the host knows whether the camera
  is plugged in and holds the queue of buffers the device will answer with;
  a transfer with the queue empty fails as a stalled pipe. *)

Module Bench.

Record host := Host { present : bool; replies : list (list byte) }.

Definition handle := unit.

Definition LIBUSB_ERROR_PIPE : Z := -9.

Definition openByVendorIDAndProductID (vendor product : Z) (h : host)
  : host * (exception + option handle) :=
  (h, inr (if present h && (vendor =? 0x0547) && (product =? 0x4d33)
           then Some tt else None)).

(** Host-to-device transfers leave the buffer as it is; device-to-host
  transfers take the next answer and write it over the start of the buffer,
  which keeps its size. *)
Definition _controlTransfer (_ : handle) (request_type request value index : Z)
    (buffer : list byte) (length timeout : Z) (h : host)
  : host * (exception + list byte) :=
  if device_to_host request_type then
    match replies h with
    | [] => (h, inl (USBError LIBUSB_ERROR_PIPE))
    | r :: rs =>
        (Host (present h) rs,
         inr (firstn (List.length buffer) (r ++ skipn (List.length r) buffer)))
    end
  else (h, inr buffer).

(** A world with nothing done yet, output not on a terminal. *)
Definition boot (h : host) : world host := World h false [].

(** A device that acknowledges whatever it is asked: the transfer leaves
  0x08 in the last byte of the buffer. *)
Definition acking_controlTransfer (_ : handle)
    (request_type request value index : Z)
    (buffer : list byte) (length timeout : Z) (h : host)
  : host * (exception + list byte) :=
  (h, inr (match buffer with
           | [] => []
           | _ :: _ => removelast buffer ++ [x08]
           end)).

End Bench.

Section Session.

(** The USB side: the state of the host and of what is plugged into it, the
    handle of an opened device, and the two entry points of usb1 the
    program calls. *)
Variable Host : Type.
Variable Handle : Type.
Variable openByVendorIDAndProductID :
  Z -> Z -> Host -> Host * (exception + option Handle).
Variable _controlTransfer :
  Handle -> Z -> Z -> Z -> Z -> list byte -> Z -> Z ->
  Host -> Host * (exception + list byte).

(** State and exceptions: a raise keeps the effects done before it. *)
Definition M (A : Type) : Type :=
  world Host -> world Host * (exception + A).

Definition ret {A} (a : A) : M A := fun w => (w, inr a).

Definition raise {A} (e : exception) : M A := fun w => (w, inl e).

Definition bind {A B} (m : M A) (f : A -> M B) : M B :=
  fun w =>
    match m w with
    | (w', inr a) => f a w'
    | (w', inl e) => (w', inl e)
    end.

Definition lift {A} (r : exception + A) : M A := fun w => (w, r).

Definition emit (e : event) : M unit :=
  fun w => (World (host w) (isatty w) (trace w ++ [e]), inr tt).

Notation "x <- m ;; k" := (bind m (fun x => k))
  (at level 61, m at next level, right associativity).
Notation "m ;; k" := (bind m (fun _ => k))
  (at level 61, right associativity).
Notation "' pat <- m ;; k" := (bind m (fun x => match x with pat => k end))
  (at level 61, pat pattern, m at next level, right associativity).

Definition debug (r : log_record) : M unit := emit (EvDebug r).

Definition sleep (secs : Q) : M unit := emit (EvSleep secs).

Definition print (line : string) : M unit := emit (EvPrint line).

Definition stdout_isatty : M bool := fun w => (w, inr (isatty w)).

(** [exit(code)] raises [SystemExit]. *)
Definition exit {A} (code : Z) : M A := raise (SystemExit code).

(** ** [_error] (lines 14-24) *)

Definition ESC : ascii := "027"%char.

Definition _error (msg : string) (code : Z) : M unit :=
  tty <- stdout_isatty ;;
  let prefix :=
    if tty then (String ESC "[91m" ++ "ERROR" ++ String ESC "[0m")%string
    else "ERROR"%string in
  print (prefix ++ " " ++ msg)%string ;;
  exit code.

(** ** [ScopetekDevice] (lines 38-90) *)

(** The object keeps what [__init__] was given, a handle or None; its logger
  shows as the [EvDebug] events. *)
Record ScopetekDevice := { _dev : option Handle }.

(** [self._dev._controlTransfer(...)]: the call is recorded, then the
    transport runs; what it leaves in the buffer is the result.  The
    AttributeError of a missing handle is given the name of the attribute
    for its text. *)
Definition controlTransfer (self : ScopetekDevice)
    (request_type request value index : Z) (buffer : list byte)
    (length timeout : Z) : M (list byte) :=
  match _dev self with
  | None => raise (AttributeError "_controlTransfer")
  | Some h =>
      emit (EvTransfer request_type request value index buffer length timeout) ;;
      fun w =>
        let '(h', r) :=
          _controlTransfer h request_type request value index buffer
                           length timeout (host w) in
        (World h' (isatty w) (trace w), r)
  end.

(** Lines 46-54: the request type and the size after the dispatch on the
    kind. *)
Definition request_encode (request : pyobj) (size : option Z)
  : exception + (Z * Z) :=
  match request with
  | Request_member CONTROL => inr (0x40, 0)
  | Request_member REG_READ | Request_member REG_WRITE =>
      inr (0xc0, match size with None => 1 | Some s => s end)
  | _ => inl (TypeError "Unknown request")
  end.

(** Lines 46-76: up to and including the transfer; the result is the buffer
    as the transfer leaves it. *)
Definition request_transfer (self : ScopetekDevice) (request : pyobj)
    (index value : Z) (data : option (list Z)) (size : option Z)
    (timeout : Z) : M (list byte) :=
  '(request_type, size) <- lift (request_encode request size) ;;
  buffer <- lift (Py.bytearray data size) ;;
  debug (if Py.truthy data then LogWrite index value (Py.elements data)
         else LogSend index value) ;;
  code <- lift (Enum.getattr_value request) ;;
  controlTransfer self request_type code value index buffer
                  (Py.sizeof buffer) timeout.

(** Lines 79-90. *)
Definition request_decode (index value : Z) (buffer : list byte)
  : M (option (list Z)) :=
  match buffer with
  | _ :: _ =>
      let data := map Py.int_from_bytes buffer in
      debug (LogRead index value data) ;;
      if negb (last data 0 =? 0x08) then
        raise (RuntimeError
                 ("Received error from the device: " ++ Py.str (last data 0)))
      else ret (Some data)
  | [] => ret None
  end.

Definition request (self : ScopetekDevice) (request : pyobj)
    (index value : Z) (data : option (list Z)) (size : option Z)
    (timeout : Z) : M (option (list Z)) :=
  buffer <- request_transfer self request index value data size timeout ;;
  sleep SETTLE ;;
  request_decode index value buffer.

(** ** [main] (lines 93-145) and the script entry (lines 148-152) *)

(** [dev.request(kind, index, value)] and [dev.request(kind, index, value,
  size=n)] as [main] writes them: no [data], [timeout] left at 0. *)
Definition call (dev : ScopetekDevice) (kind : _Request) (index value : Z)
    (size : option Z) : M (option (list Z)) :=
  request dev (Request_member kind) index value None size 0.

(** [usb1.LibUSBContext().openByVendorIDAndProductID(...)]: a handle, or
  None when no such device is attached. *)
Definition ctx_openByVendorIDAndProductID (vendor product : Z)
  : M (option Handle) :=
  fun w =>
    let '(h, r) := openByVendorIDAndProductID vendor product (host w) in
    (World h (isatty w) (trace w), r).

Definition main : M unit :=
  usb_dev <- ctx_openByVendorIDAndProductID 0x0547 0x4d33 ;;
  match usb_dev with
  | None => _error "Device not found (0x0547, 0x4d33)" 1
  | Some _ => ret tt
  end ;;
  let dev := {| _dev := usb_dev |} in
  call dev CONTROL 0x000f 0x0001 None ;;
  call dev CONTROL 0x000f 0x0000 None ;;
  call dev CONTROL 0x000f 0x0001 None ;;
  call dev REG_READ 0x0000 0x0000 (Some 3) ;;
  call dev REG_WRITE 0x000a 0x8000 None ;;
  call dev REG_WRITE 0x000d 0x0001 None ;;
  call dev REG_WRITE 0x000d 0x0000 None ;;
  sleep 1 ;;
  call dev REG_WRITE 0x0001 0x0015 None ;;
  call dev REG_WRITE 0x0002 0x0021 None ;;
  call dev REG_WRITE 0x0020 0x0000 None ;;
  call dev REG_WRITE 0x001e 0x8040 None ;;
  call dev REG_WRITE 0x004e 0x0030 None ;;
  call dev REG_WRITE 0x0004 0x07ff None ;;
  call dev REG_WRITE 0x0003 0x05ff None ;;
  call dev REG_WRITE 0x002b 0x0060 None ;;
  call dev REG_WRITE 0x002c 0x0060 None ;;
  call dev REG_WRITE 0x002d 0x0060 None ;;
  call dev REG_WRITE 0x002e 0x0060 None ;;
  call dev REG_WRITE 0x000a 0x8001 None ;;
  call dev REG_WRITE 0x0022 0x0033 None ;;
  call dev REG_WRITE 0x0023 0x0033 None ;;
  call dev REG_WRITE 0x0005 0x0150 None ;;
  call dev REG_WRITE 0x000a 0x8000 None ;;
  call dev REG_WRITE 0x0005 0x0300 None ;;
  call dev REG_READ 0x0005 0x0000 (Some 3) ;;
  call dev REG_READ 0x0004 0x0000 (Some 3) ;;
  call dev REG_READ 0x0002 0x0000 (Some 3) ;;
  call dev REG_WRITE 0x0009 0x012c None ;;
  call dev REG_WRITE 0x0035 0x0056 None ;;
  call dev CONTROL 0x000f 0x0003 None ;;
  ret tt.

(** The [__main__] block: [argv] is [sys.argv]. *)
Definition program (argv : list string) : M unit :=
  (if existsb (String.eqb "--debug") (tl argv) then emit EvBasicConfig
   else ret tt) ;;
  main.

(** The exit status the interpreter gives the process: that of [SystemExit],
  1 for any other exception that reaches the top, 0 otherwise.  The status
  keeps the low byte of the code; codes beyond a C long are left out. *)
Definition exit_status (r : exception + unit) : Z :=
  match r with
  | inr _ => 0
  | inl (SystemExit code) => code mod 256
  | inl _ => 1
  end.

(** The world once the pause that follows the transfer is over. *)
Definition settled (w : world Host) : world Host :=
  World (host w) (isatty w) (trace w ++ [EvSleep SETTLE]).


(** [m] makes at most [n] transfers and sleeps for [s] seconds at most, and
  just that much when it returns. *)
Definition Spends {A} (n : nat) (s : Q) (m : M A) : Prop :=
  (0 <= s)%Q /\ forall w, exists delta,
    trace (fst (m w)) = trace w ++ delta
    /\ (List.length (transfers delta) <= n)%nat
    /\ (0 <= slept delta <= s)%Q
    /\ (forall a, snd (m w) = inr a ->
        List.length (transfers delta) = n /\ (slept delta == s)%Q).

(** The transfers [main] asks for: no timeout, the length of the buffer, and
  a buffer of zeros whose size goes with the kind. *)
Definition script_transfer (e : event) : Prop :=
  match e with
  | EvTransfer request_type request _ _ buffer length timeout =>
      timeout = 0 /\ length = Py.sizeof buffer
      /\ (request_type = 0x40 /\ request = 1 /\ buffer = []
          \/ request_type = 0xc0 /\ request = 10 /\ buffer = [x00; x00; x00]
          \/ request_type = 0xc0 /\ request = 11 /\ buffer = [x00])
  | _ => True
  end.

(** [m] returns, whatever the world it starts in. *)
Definition Returns {A} (m : M A) : Prop :=
  forall w, exists w' a, m w = (w', inr a).

(** Every event [m] adds to the trace satisfies [ok]. *)
Definition Only {A} (ok : event -> Prop) (m : M A) : Prop :=
  forall w, exists delta,
    trace (fst (m w)) = trace w ++ delta /\ Forall ok delta.

(** * Properties *)

(** ** Bytes and lists *)

Lemma int_from_bytes_range (b : byte) : 0 <= Py.int_from_bytes b <= 255.
Proof.
  unfold Py.int_from_bytes.
  pose proof (Byte.to_N_bounded b) as Hb. lia.
Qed.

Lemma int_from_bytes_inj (b b' : byte) :
  Py.int_from_bytes b = Py.int_from_bytes b' -> b = b'.
Proof.
  unfold Py.int_from_bytes. intros H.
  apply N2Z.inj in H.
  assert (E : Byte.of_N (Byte.to_N b) = Byte.of_N (Byte.to_N b')) by now rewrite H.
  rewrite !Byte.of_to_N in E. congruence.
Qed.

Lemma last_map_nonempty {A B} (f : A -> B) (l : list A) (d : A) (d' : B) :
  l <> [] -> last (map f l) d' = f (last l d).
Proof.
  induction l as [|a [|a' l] IH]; intros Hne.
  - congruence.
  - reflexivity.
  - change (last (map f (a' :: l)) d' = f (last (a' :: l) d)).
    apply IH. discriminate.
Qed.

Lemma append_inj_l (p s s' : string) : (p ++ s = p ++ s')%string -> s = s'.
Proof.
  induction p as [|c p IH]; cbn; intros H; [exact H|].
  injection H as H. now apply IH.
Qed.

(** [str] tells integers apart. *)
Lemma str_inj (z z' : Z) : Py.str z = Py.str z' -> z = z'.
Proof.
  unfold Py.str. intros H.
  assert (Hn : forall n, NilZero.int_of_string
                           (NilZero.string_of_int (Z.to_int n))
                         = Some (Z.to_int n)).
  { intros n. apply NilZero.isi; destruct n; cbn; try discriminate;
      intros E; injection E; apply DecimalPos.Unsigned.to_uint_nonnil. }
  pose proof (Hn z) as Hz. rewrite H, Hn in Hz.
  apply DecimalZ.to_int_inj. congruence.
Qed.

(** ** The monad *)

Lemma bind_inr {A B} (m : M A) (f : A -> M B) w w' a :
  m w = (w', inr a) -> bind m f w = f a w'.
Proof. unfold bind. now intros ->. Qed.

Lemma bind_inl {A B} (m : M A) (f : A -> M B) w w' e :
  m w = (w', inl e) -> bind m f w = (w', inl e).
Proof. unfold bind. now intros ->. Qed.

(** ** [request], phase by phase *)

Lemma request_after_transfer self kind index value data size timeout w w1 buffer :
  request_transfer self kind index value data size timeout w = (w1, inr buffer) ->
  request self kind index value data size timeout w
  = request_decode index value buffer (settled w1).
Proof.
  intros H. unfold request.
  rewrite (bind_inr _ _ _ _ _ H). reflexivity.
Qed.

Lemma request_transfer_raises self kind index value data size timeout w w1 e :
  request_transfer self kind index value data size timeout w = (w1, inl e) ->
  request self kind index value data size timeout w = (w1, inl e).
Proof.
  intros H. unfold request. now rewrite (bind_inl _ _ _ _ _ H).
Qed.

Lemma request_decode_empty index value w :
  request_decode index value [] w = (w, inr None).
Proof. reflexivity. Qed.

Lemma request_decode_nonempty index value buffer w :
  buffer <> [] ->
  request_decode index value buffer w
  = let data := map Py.int_from_bytes buffer in
    let w' := World (host w) (isatty w)
                    (trace w ++ [EvDebug (LogRead index value data)]) in
    if last data 0 =? 0x08 then (w', inr (Some data))
    else (w', inl (RuntimeError ("Received error from the device: "
                                 ++ Py.str (last data 0)))).
Proof.
  destruct buffer as [|b buffer]; [congruence|]. intros _.
  unfold request_decode, debug, emit, bind, ret, raise.
  cbv zeta. destruct (last _ 0 =? 0x08); reflexivity.
Qed.

(** C1: when the transfer of a call leaves a non-empty buffer whose last byte
  is not 0x08, the call raises the RuntimeError whose text carries that byte
  (in decimal), after the pause and the log of what was read; no result is
  returned, whatever the length of the buffer; and the text of the error
  names no other byte. *)
Theorem request_status_mismatch
    self kind index value data size timeout w w1 buffer :
  request_transfer self kind index value data size timeout w = (w1, inr buffer) ->
  buffer <> [] ->
  last buffer x00 <> x08 ->
  request self kind index value data size timeout w
  = (World (host w1) (isatty w1)
           (trace w1 ++ [EvSleep SETTLE;
                         EvDebug (LogRead index value
                                          (map Py.int_from_bytes buffer))]),
     inl (RuntimeError
            ("Received error from the device: "
             ++ Py.str (Py.int_from_bytes (last buffer x00)))))
  /\ (forall b : byte,
        ("Received error from the device: " ++ Py.str (Py.int_from_bytes b)
         = "Received error from the device: "
           ++ Py.str (Py.int_from_bytes (last buffer x00)))%string ->
        b = last buffer x00).
Proof.
  intros Ht Hne Hlast. split.
  - rewrite (request_after_transfer _ _ _ _ _ _ _ _ _ _ Ht).
    rewrite request_decode_nonempty by assumption. cbv zeta.
    rewrite (last_map_nonempty _ _ x00) by assumption.
    destruct (Z.eqb_spec (Py.int_from_bytes (last buffer x00)) 0x08) as [E|E].
    + exfalso. apply Hlast. now apply int_from_bytes_inj.
    + unfold settled. cbn [host isatty trace].
      now rewrite <- app_assoc.
  - intros b Hb.
    apply int_from_bytes_inj, str_inj, (append_inj_l _ _ _ Hb).
Qed.

(** C5: when the transfer of a call leaves an empty buffer, the call returns
  None: a result, not an exception, and not the empty list. *)
Theorem request_empty_response
    self kind index value data size timeout w w1 :
  request_transfer self kind index value data size timeout w = (w1, inr []) ->
  request self kind index value data size timeout w = (settled w1, inr None)
  /\ (forall e : exception, inr (@None (list Z)) <> inl e)
  /\ @None (list Z) <> Some [].
Proof.
  intros Ht. split; [|split].
  - now rewrite (request_after_transfer _ _ _ _ _ _ _ _ _ _ Ht).
  - discriminate.
  - discriminate.
Qed.

(** C7: when the transfer of a call leaves a non-empty buffer ending in 0x08,
  the call returns every byte of the buffer as an integer, the status byte
  included; so a REG_READ at index 0, value 0, size 3 whose transfer leaves
  01 02 08 returns [1, 2, 8]. *)
Theorem request_success
    self kind index value data size timeout w w1 buffer :
  request_transfer self kind index value data size timeout w = (w1, inr buffer) ->
  buffer <> [] ->
  last buffer x00 = x08 ->
  request self kind index value data size timeout w
  = (World (host w1) (isatty w1)
           (trace w1 ++ [EvSleep SETTLE;
                         EvDebug (LogRead index value
                                          (map Py.int_from_bytes buffer))]),
     inr (Some (map Py.int_from_bytes buffer)))
  /\ List.length (map Py.int_from_bytes buffer) = List.length buffer
  /\ (kind = Request_member REG_READ -> index = 0x0000 -> value = 0x0000 ->
      data = None -> size = Some 3 -> buffer = [x01; x02; x08] ->
      snd (request self kind index value data size timeout w)
      = inr (Some [1; 2; 8])).
Proof.
  intros Ht Hne Hlast.
  assert (E : request self kind index value data size timeout w
              = (World (host w1) (isatty w1)
                   (trace w1 ++ [EvSleep SETTLE;
                                 EvDebug (LogRead index value
                                            (map Py.int_from_bytes buffer))]),
                 inr (Some (map Py.int_from_bytes buffer)))).
  { rewrite (request_after_transfer _ _ _ _ _ _ _ _ _ _ Ht).
    rewrite request_decode_nonempty by assumption. cbv zeta.
    rewrite (last_map_nonempty _ _ x00) by assumption.
    rewrite Hlast. cbn [Z.eqb Py.int_from_bytes].
    unfold settled. cbn [host isatty trace].
    now rewrite <- app_assoc. }
  split; [exact E|split].
  - apply length_map.
  - intros _ _ _ _ _ Hb. rewrite E. now subst buffer.
Qed.

(** C10: a list returned by a call is never empty, holds integers of
  0..255 only, and ends in 0x08. *)
Theorem request_result_invariant
    self kind index value data size timeout w w' l :
  request self kind index value data size timeout w = (w', inr (Some l)) ->
  l <> [] /\ Forall (fun x => 0 <= x <= 255) l /\ last l 0 = 0x08.
Proof.
  intros H.
  destruct (request_transfer self kind index value data size timeout w)
    as [w1 [e|buffer]] eqn:Ht.
  - rewrite (request_transfer_raises _ _ _ _ _ _ _ _ _ _ Ht) in H. discriminate.
  - rewrite (request_after_transfer _ _ _ _ _ _ _ _ _ _ Ht) in H.
    destruct buffer as [|b buffer].
    + rewrite request_decode_empty in H. discriminate.
    + rewrite request_decode_nonempty in H by discriminate. cbv zeta in H.
      destruct (Z.eqb_spec (last (map Py.int_from_bytes (b :: buffer)) 0) 0x08)
        as [E|E]; [|discriminate].
      injection H as _ <-. split; [discriminate|split].
      * apply Forall_forall. intros x Hx.
        change (In x (map Py.int_from_bytes (b :: buffer))) in Hx.
        apply in_map_iff in Hx. destruct Hx as [b' [<- _]].
        apply int_from_bytes_range.
      * exact E.
Qed.

(** C4: a [request] argument that is no member of [_Request] makes the call
  raise the TypeError at once: the world is as it was, so the host is
  untouched and no transfer was recorded. *)
Theorem request_unknown_kind self kind index value data size timeout w :
  (forall r, kind <> Request_member r) ->
  request self kind index value data size timeout w
  = (w, inl (TypeError "Unknown request"))
  /\ transfers (trace (fst (request self kind index value data size timeout w)))
     = transfers (trace w).
Proof.
  intros Hk.
  assert (E : request self kind index value data size timeout w
              = (w, inl (TypeError "Unknown request"))).
  { apply request_transfer_raises.
    unfold request_transfer, lift, bind.
    destruct kind as [r| | | |]; try reflexivity.
    now elim (Hk r). }
  split; [exact E|now rewrite E].
Qed.

Lemma byte_of_int_inv (z : Z) (b : byte) :
  Py.byte_of_int z = Some b -> Py.int_from_bytes b = z.
Proof.
  unfold Py.byte_of_int, Py.int_from_bytes.
  destruct (Z.leb_spec 0 z) as [Hz|Hz]; cbn [andb]; [|discriminate].
  destruct (z <? 256); [|discriminate].
  intros H. apply Byte.to_of_N in H. rewrite H. now apply Z2N.id.
Qed.

Lemma bytearray_of_list_inv (l : list Z) (buffer : list byte) :
  Py.bytearray_of_list l = inr buffer -> map Py.int_from_bytes buffer = l.
Proof.
  revert buffer. induction l as [|z l IH]; cbn; intros buffer H.
  - now injection H as <-.
  - destruct (Py.byte_of_int z) as [b|] eqn:Hb; [|discriminate].
    destruct (Py.bytearray_of_list l) as [e|bs]; [discriminate|].
    injection H as <-. cbn.
    now rewrite (byte_of_int_inv _ _ Hb), (IH bs).
Qed.

Lemma bytearray_of_size_inv (n : Z) (buffer : list byte) :
  Py.bytearray_of_size n = inr buffer ->
  0 <= n /\ buffer = repeat x00 (Z.to_nat n).
Proof.
  unfold Py.bytearray_of_size.
  destruct (Z.ltb_spec n 0) as [Hn|Hn]; [discriminate|].
  intros H. injection H as <-. split; [assumption|reflexivity].
Qed.

(** [request_transfer] unfolded: each place it can stop at. *)
Lemma request_transfer_spec self kind index value data size timeout w :
  request_transfer self kind index value data size timeout w
  = match request_encode kind size with
    | inl e => (w, inl e)
    | inr (request_type, size') =>
        match Py.bytearray data size' with
        | inl e => (w, inl e)
        | inr buffer =>
            let l := if Py.truthy data
                     then LogWrite index value (Py.elements data)
                     else LogSend index value in
            match Enum.getattr_value kind with
            | inl e =>
                (World (host w) (isatty w) (trace w ++ [EvDebug l]), inl e)
            | inr code =>
                match _dev self with
                | None =>
                    (World (host w) (isatty w) (trace w ++ [EvDebug l]),
                     inl (AttributeError "_controlTransfer"))
                | Some h =>
                    let '(h', r) :=
                      _controlTransfer h request_type code value index buffer
                                       (Py.sizeof buffer) timeout (host w) in
                    (World h' (isatty w)
                           (trace w ++ [EvDebug l;
                                        EvTransfer request_type code value index
                                          buffer (Py.sizeof buffer) timeout]),
                     r)
                end
            end
        end
    end.
Proof.
  unfold request_transfer, controlTransfer, lift, bind, debug, emit, raise.
  destruct (request_encode kind size) as [e|[request_type size']]; [reflexivity|].
  destruct (Py.bytearray data size') as [e|buffer]; [reflexivity|].
  cbv zeta. cbn [host isatty trace].
  destruct (Enum.getattr_value kind) as [e|code]; [reflexivity|].
  destruct (_dev self) as [h|]; [|reflexivity].
  cbn [host isatty trace].
  destruct (_controlTransfer _ _ _ _ _ _ _ _ _) as [h' r].
  now rewrite <- app_assoc.
Qed.

(** What one call adds to the trace.  Either it stops before the transport is
  reached, or it makes exactly one transfer, with the encoded request type
  and code and the buffer of [bytearray]; the pause follows unless the
  transport itself raised. *)
Lemma request_trace self kind index value data size timeout w :
  exists delta,
    trace (fst (request self kind index value data size timeout w))
    = trace w ++ delta
    /\ ((exists e, snd (request self kind index value data size timeout w) = inl e)
          /\ (delta = [] \/ exists l, delta = [EvDebug l])
        \/ exists request_type size' code buffer l,
            request_encode kind size = inr (request_type, size')
            /\ Py.bytearray data size' = inr buffer
            /\ Enum.getattr_value kind = inr code
            /\ let xfer := EvTransfer request_type code value index buffer
                                      (Py.sizeof buffer) timeout in
               ((exists e, snd (request self kind index value data size timeout w)
                           = inl e)
                /\ delta = [EvDebug l; xfer]
                \/ delta = [EvDebug l; xfer; EvSleep SETTLE]
                \/ exists l', delta = [EvDebug l; xfer; EvSleep SETTLE; EvDebug l'])).
Proof.
  destruct (request_transfer self kind index value data size timeout w)
    as [w1 [e|reply]] eqn:Ht.
  - rewrite (request_transfer_raises _ _ _ _ _ _ _ _ _ _ Ht).
    rewrite request_transfer_spec in Ht. cbn [fst snd].
    destruct (request_encode kind size) as [e0|[request_type size']] eqn:He.
    { injection Ht as <- <-. exists []. rewrite app_nil_r. eauto 6. }
    destruct (Py.bytearray data size') as [e0|buffer] eqn:Hb.
    { injection Ht as <- <-. exists []. rewrite app_nil_r. eauto 6. }
    cbv zeta in Ht.
    destruct (Enum.getattr_value kind) as [e0|code] eqn:Hc.
    { injection Ht as <- <-. eexists. split; [reflexivity|]. eauto 6. }
    destruct (_dev self) as [h|].
    2:{ injection Ht as <- <-. eexists. split; [reflexivity|]. eauto 6. }
    destruct (_controlTransfer _ _ _ _ _ _ _ _ _) as [h' r].
    injection Ht as <- ->. eexists. split; [reflexivity|].
    right. exists request_type, size', code, buffer. eexists.
    do 3 (split; [first [assumption|reflexivity]|]). left. eauto.
  - rewrite (request_after_transfer _ _ _ _ _ _ _ _ _ _ Ht).
    rewrite request_transfer_spec in Ht.
    destruct (request_encode kind size) as [e0|[request_type size']] eqn:He;
      [discriminate|].
    destruct (Py.bytearray data size') as [e0|buffer] eqn:Hb; [discriminate|].
    cbv zeta in Ht.
    destruct (Enum.getattr_value kind) as [e0|code] eqn:Hc; [discriminate|].
    destruct (_dev self) as [h|]; [|discriminate].
    destruct (_controlTransfer _ _ _ _ _ _ _ _ _) as [h' r].
    injection Ht as <- ->.
    destruct reply as [|b reply].
    + rewrite request_decode_empty. unfold settled. cbn [fst host isatty trace].
      eexists. split; [now rewrite <- app_assoc|].
      right. exists request_type, size', code, buffer. eexists.
      do 3 (split; [first [assumption|reflexivity]|]). right. left. reflexivity.
    + rewrite request_decode_nonempty by discriminate. cbv zeta.
      unfold settled. cbn [host isatty trace].
      destruct (_ =? 0x08); cbn [fst trace];
        (eexists; split; [now rewrite <- !app_assoc|];
         right; exists request_type, size', code, buffer; eexists;
         do 3 (split; [first [assumption|reflexivity]|]); right; right; eexists; reflexivity).
Qed.

(** The transfers of one call: at most one, and it is the encoded one. *)
Lemma request_transfers_in self kind index value data size timeout w :
  exists delta,
    trace (fst (request self kind index value data size timeout w))
    = trace w ++ delta
    /\ forall e, In e delta -> is_transfer e = true ->
        exists request_type size' code buffer,
          request_encode kind size = inr (request_type, size')
          /\ Py.bytearray data size' = inr buffer
          /\ Enum.getattr_value kind = inr code
          /\ e = EvTransfer request_type code value index buffer
                            (Py.sizeof buffer) timeout.
Proof.
  destruct (request_trace self kind index value data size timeout w)
    as [delta [Hd Hc]].
  exists delta. split; [exact Hd|]. intros e Hin He.
  destruct Hc as [[_ [->|[l ->]]]
                 |(rt & sz & code & buffer & l & H1 & H2 & H3 & Hs)].
  - destruct Hin.
  - destruct Hin as [<-|[]]. discriminate.
  - exists rt, sz, code, buffer. do 3 (split; [assumption|]).
    cbv zeta in Hs.
    destruct Hs as [[_ ->]|[->|[l' ->]]]; cbn [In] in Hin;
      repeat (destruct Hin as [<-|Hin]; [try discriminate He; try reflexivity|]);
      destruct Hin.
Qed.

(** A call that has a handle, a kind that encodes and a buffer that builds
  reaches the transport: the trace gains the log of what is sent and then
  that one transfer, and no other transfer after it. *)
Lemma request_reaches_transport
    self h kind index value data size timeout w request_type size' code buffer :
  _dev self = Some h ->
  request_encode kind size = inr (request_type, size') ->
  Py.bytearray data size' = inr buffer ->
  Enum.getattr_value kind = inr code ->
  exists post,
    trace (fst (request self kind index value data size timeout w))
    = trace w
      ++ EvDebug (if Py.truthy data
                  then LogWrite index value (Py.elements data)
                  else LogSend index value)
      :: EvTransfer request_type code value index buffer
                    (Py.sizeof buffer) timeout
      :: post
    /\ transfers post = [].
Proof.
  intros Hdev Henc Hbuf Hcode.
  destruct (request_transfer self kind index value data size timeout w)
    as [w1 [e|reply]] eqn:Ht.
  - rewrite (request_transfer_raises _ _ _ _ _ _ _ _ _ _ Ht).
    rewrite request_transfer_spec, Henc, Hbuf in Ht. cbv zeta in Ht.
    rewrite Hcode, Hdev in Ht.
    destruct (_controlTransfer _ _ _ _ _ _ _ _ _) as [h' r].
    injection Ht as <- _. exists []. now split.
  - rewrite (request_after_transfer _ _ _ _ _ _ _ _ _ _ Ht).
    rewrite request_transfer_spec, Henc, Hbuf in Ht. cbv zeta in Ht.
    rewrite Hcode, Hdev in Ht.
    destruct (_controlTransfer _ _ _ _ _ _ _ _ _) as [h' r].
    injection Ht as <- _. unfold settled. cbn [host isatty trace].
    destruct reply as [|b reply].
    + rewrite request_decode_empty. cbn [fst trace].
      exists [EvSleep SETTLE]. split; [now rewrite <- app_assoc|reflexivity].
    + rewrite request_decode_nonempty by discriminate. cbv zeta.
      destruct (_ =? 0x08); cbn [fst trace];
        (eexists [EvSleep SETTLE; EvDebug _];
         split; [now rewrite <- !app_assoc|reflexivity]).
Qed.

(** C2, as the code has it: a CONTROL call is encoded with request type 0x40,
  whose direction bit says host-to-device, and with size 0, whatever [size]
  and [data] are; when it has a handle and its buffer builds, it makes just
  one transfer, with that request type and the code 1; the transfer carries
  no data and length 0 when there is no payload or an empty one, and the
  payload with the length of the payload otherwise. *)
Theorem request_control self h index value data size timeout w buffer :
  _dev self = Some h ->
  Py.bytearray data 0 = inr buffer ->
  request_encode (Request_member CONTROL) size = inr (0x40, 0)
  /\ device_to_host 0x40 = false
  /\ (exists post,
        trace (fst (request self (Request_member CONTROL) index value
                            data size timeout w))
        = trace w
          ++ EvDebug (if Py.truthy data
                      then LogWrite index value (Py.elements data)
                      else LogSend index value)
          :: EvTransfer 0x40 1 value index buffer (Py.sizeof buffer) timeout
          :: post
        /\ transfers post = [])
  /\ (Py.truthy data = false -> buffer = [] /\ Py.sizeof buffer = 0)
  /\ (Py.truthy data = true ->
      map Py.int_from_bytes buffer = Py.elements data
      /\ Py.sizeof buffer = Z.of_nat (List.length (Py.elements data))).
Proof.
  intros Hdev Hbuf.
  split; [reflexivity|split; [reflexivity|split; [|split]]].
  - apply (request_reaches_transport self h (Request_member CONTROL) index
             value data size timeout w 0x40 0 1 buffer Hdev eq_refl Hbuf
             eq_refl).
  - intros Hf. unfold Py.bytearray in Hbuf. rewrite Hf in Hbuf.
    injection Hbuf as <-. now split.
  - intros Ht. unfold Py.bytearray in Hbuf. rewrite Ht in Hbuf.
    apply bytearray_of_list_inv in Hbuf. split; [exact Hbuf|].
    unfold Py.sizeof. now rewrite <- Hbuf, length_map.
Qed.

(** C3: a REG_READ or REG_WRITE call is encoded with request type 0xc0, whose
  direction bit says device-to-host, for both kinds; the two differ by the
  request code only, 10 and 11; the size is the one given, and 1 when none
  is; when the call has a handle and its buffer builds, it makes just one
  transfer, with that request type, the code of its kind and that buffer;
  with no size and no payload the buffer is one zero byte, of length 1. *)
Theorem request_register self h kind index value data size timeout w buffer :
  kind = REG_READ \/ kind = REG_WRITE ->
  _dev self = Some h ->
  Py.bytearray data (match size with None => 1 | Some s => s end)
  = inr buffer ->
  request_encode (Request_member kind) size
  = inr (0xc0, match size with None => 1 | Some s => s end)
  /\ request_encode (Request_member kind) None = inr (0xc0, 1)
  /\ device_to_host 0xc0 = true
  /\ Enum.value REG_READ = 10 /\ Enum.value REG_WRITE = 11
  /\ (exists post,
        trace (fst (request self (Request_member kind) index value
                            data size timeout w))
        = trace w
          ++ EvDebug (if Py.truthy data
                      then LogWrite index value (Py.elements data)
                      else LogSend index value)
          :: EvTransfer 0xc0 (Enum.value kind) value index buffer
                        (Py.sizeof buffer) timeout
          :: post
        /\ transfers post = [])
  /\ (size = None -> Py.truthy data = false ->
      buffer = [x00] /\ Py.sizeof buffer = 1).
Proof.
  intros Hk Hdev Hbuf.
  assert (E : forall sz, request_encode (Request_member kind) sz
                         = inr (0xc0, match sz with None => 1 | Some s => s end))
    by (destruct Hk as [->| ->]; reflexivity).
  split; [apply E|split; [apply E|]].
  do 3 (split; [reflexivity|]). split.
  - apply (request_reaches_transport self h (Request_member kind) index
             value data size timeout w 0xc0 _ (Enum.value kind) buffer
             Hdev (E size) Hbuf eq_refl).
  - intros -> Hf. unfold Py.bytearray in Hbuf. rewrite Hf in Hbuf.
    injection Hbuf as <-. now split.
Qed.

(** C6, as the code has it: the buffer handed to the transport holds the
  payload when [data] is a non-empty list, and otherwise ([data] absent or
  empty) as many zero bytes as the computed size; the length handed over is
  the number of bytes of that buffer. *)
Theorem request_outgoing_buffer self kind index value data size timeout w :
  exists delta,
    trace (fst (request self kind index value data size timeout w))
    = trace w ++ delta
    /\ forall e, In e delta -> is_transfer e = true ->
        exists request_type size' code buffer,
          request_encode kind size = inr (request_type, size')
          /\ e = EvTransfer request_type code value index buffer
                            (Z.of_nat (List.length buffer)) timeout
          /\ match data with
             | Some (x :: l) => map Py.int_from_bytes buffer = x :: l
             | _ => buffer = repeat x00 (Z.to_nat size')
             end.
Proof.
  destruct (request_transfers_in self kind index value data size timeout w)
    as [delta [Hd Hin]].
  exists delta. split; [exact Hd|]. intros e He Ht.
  destruct (Hin e He Ht) as (rt & sz & code & buffer & H1 & H2 & H3 & ->).
  exists rt, sz, code, buffer. split; [exact H1|split; [reflexivity|]].
  unfold Py.bytearray in H2.
  destruct data as [[|x l]|]; cbn [Py.truthy Py.elements] in H2.
  - now apply bytearray_of_size_inv in H2.
  - now apply bytearray_of_list_inv.
  - now apply bytearray_of_size_inv in H2.
Qed.

(** [_error] prints one line and leaves through [SystemExit]. *)
Lemma _error_spec msg code w :
  _error msg code w
  = (World (host w) (isatty w)
           (trace w ++ [EvPrint ((if isatty w
                                  then String ESC "[91m" ++ "ERROR"
                                       ++ String ESC "[0m"
                                  else "ERROR") ++ " " ++ msg)%string]),
     inl (SystemExit code)).
Proof. reflexivity. Qed.

(** C9: when opening 0x0547:0x4d33 finds no device, the program prints one
  line that contains both identifiers and leaves with status 1, and the
  trace has no transfer it did not have before. *)
Theorem device_not_found argv w h :
  openByVendorIDAndProductID 0x0547 0x4d33 (host w) = (h, inr None) ->
  exists line,
    program argv w
    = (World h (isatty w)
             (trace w
              ++ (if existsb (String.eqb "--debug") (tl argv)
                  then [EvBasicConfig] else [])
              ++ [EvPrint line]),
       inl (SystemExit 1))
    /\ Py.contains "0x0547" line = true
    /\ Py.contains "0x4d33" line = true
    /\ exit_status (snd (program argv w)) = 1
    /\ transfers (trace (fst (program argv w))) = transfers (trace w).
Proof.
  intros Hopen.
  assert (Hmain : forall w0, host w0 = host w ->
            main w0
            = (World h (isatty w0)
                 (trace w0
                  ++ [EvPrint ((if isatty w0
                                then String ESC "[91m" ++ "ERROR"
                                     ++ String ESC "[0m"
                                else "ERROR")
                               ++ " Device not found (0x0547, 0x4d33)")%string]),
               inl (SystemExit 1))).
  { intros w0 Hw0. unfold main.
    erewrite bind_inr
      by (unfold ctx_openByVendorIDAndProductID; rewrite Hw0, Hopen; reflexivity).
    erewrite bind_inl by apply _error_spec. reflexivity. }
  eexists. split; [|split; [|split; [|split]]].
  - unfold program.
    destruct (existsb _ _).
    + erewrite bind_inr by reflexivity. rewrite Hmain by reflexivity.
      cbn [host isatty trace]. rewrite <- app_assoc. reflexivity.
    + erewrite bind_inr by reflexivity. rewrite Hmain by reflexivity.
      reflexivity.
  - destruct (isatty w); vm_compute; reflexivity.
  - destruct (isatty w); vm_compute; reflexivity.
  - unfold program.
    destruct (existsb _ _);
      (erewrite bind_inr by reflexivity); rewrite Hmain by reflexivity;
      reflexivity.
  - unfold program.
    destruct (existsb _ _);
      (erewrite bind_inr by reflexivity); rewrite Hmain by reflexivity;
      cbn [fst trace]; unfold transfers; rewrite !filter_app;
      cbn [filter is_transfer]; now rewrite ?app_nil_r.
Qed.

(** ** Pacing of the transfers *)








Lemma SETTLE_nonneg : (0 <= SETTLE)%Q.
Proof. unfold SETTLE. lra. Qed.













(** * Further properties of [request] and [_error] *)

(** ** Failures before and in the transfer *)

Lemma byte_of_int_out_of_range (z : Z) :
  z < 0 \/ 255 < z -> Py.byte_of_int z = None.
Proof.
  intros Hz. unfold Py.byte_of_int.
  destruct (Z.leb_spec 0 z) as [H0|H0]; cbn [andb]; [|reflexivity].
  destruct (Z.ltb_spec z 256) as [H1|H1]; [lia|reflexivity].
Qed.

Lemma byte_of_int_in_range (z : Z) :
  0 <= z <= 255 -> exists b, Py.byte_of_int z = Some b.
Proof.
  intros Hz. unfold Py.byte_of_int.
  destruct (Z.leb_spec 0 z) as [H0|H0]; [|lia].
  destruct (Z.ltb_spec z 256) as [H1|H1]; [|lia]. cbn [andb].
  destruct (Byte.of_N (Z.to_N z)) as [b|] eqn:E; [now exists b|].
  apply Byte.of_N_None_iff in E. lia.
Qed.

Lemma bytearray_of_list_out_of_range (l : list Z) :
  Exists (fun z => z < 0 \/ 255 < z) l ->
  Py.bytearray_of_list l = inl (ValueError "byte must be in range(0, 256)").
Proof.
  induction l as [|z l IH]; intros H; [inversion H|].
  cbn [Py.bytearray_of_list].
  destruct (Py.byte_of_int z) as [b|] eqn:Hb; [|reflexivity].
  apply Exists_cons in H. destruct H as [H|H].
  - rewrite (byte_of_int_out_of_range _ H) in Hb. discriminate.
  - now rewrite (IH H).
Qed.

Lemma bytearray_of_list_in_range (l : list Z) :
  Forall (fun z => 0 <= z <= 255) l ->
  exists buffer, Py.bytearray_of_list l = inr buffer.
Proof.
  induction 1 as [|z l Hz _ [bs IH]]; [now exists []|].
  destruct (byte_of_int_in_range z Hz) as [b Hb].
  exists (b :: bs). cbn [Py.bytearray_of_list]. now rewrite Hb, IH.
Qed.

(** X1: when the transport raises, the call raises the same exception: the
  transfer is in the trace, no pause follows it, nothing is decoded, and the
  host is as the transport left it. *)
Theorem request_transport_error
    self h r index value data size timeout w request_type size' buffer h' e :
  _dev self = Some h ->
  request_encode (Request_member r) size = inr (request_type, size') ->
  Py.bytearray data size' = inr buffer ->
  _controlTransfer h request_type (Enum.value r) value index buffer
                   (Py.sizeof buffer) timeout (host w) = (h', inl e) ->
  request self (Request_member r) index value data size timeout w
  = (World h' (isatty w)
           (trace w
            ++ [EvDebug (if Py.truthy data
                         then LogWrite index value (Py.elements data)
                         else LogSend index value);
                EvTransfer request_type (Enum.value r) value index buffer
                           (Py.sizeof buffer) timeout]),
     inl e).
Proof.
  intros Hdev Henc Hbuf Hxfer.
  apply request_transfer_raises. rewrite request_transfer_spec.
  rewrite Henc, Hbuf. cbv zeta. cbn [Enum.getattr_value].
  now rewrite Hdev, Hxfer.
Qed.

(** X2: a payload with an element outside 0..255 makes the call raise the
  ValueError of [bytearray] before anything is logged or sent: the world is
  as it was. *)
Theorem request_payload_out_of_range
    self r index value x l size timeout w :
  Exists (fun z => z < 0 \/ 255 < z) (x :: l) ->
  request self (Request_member r) index value (Some (x :: l)) size timeout w
  = (w, inl (ValueError "byte must be in range(0, 256)")).
Proof.
  intros Hbad. apply request_transfer_raises. rewrite request_transfer_spec.
  destruct (request_encode (Request_member r) size) as [e|[rt sz]] eqn:Henc.
  { destruct r; discriminate Henc. }
  unfold Py.bytearray. cbn [Py.truthy Py.elements].
  now rewrite (bytearray_of_list_out_of_range _ Hbad).
Qed.


(** ** What [_error] prints *)

Lemma prefix_app (n rest : string) : String.prefix n (n ++ rest) = true.
Proof.
  induction n as [|c n IH]; [now destruct rest|]. cbn.
  destruct (ascii_dec c c); [exact IH|congruence].
Qed.

Lemma contains_app (n before rest : string) :
  Py.contains n (before ++ n ++ rest) = true.
Proof.
  induction before as [|c before IH]; cbn [append].
  - destruct (n ++ rest)%string as [|c s] eqn:E.
    + destruct n; [reflexivity|discriminate E].
    + cbn [Py.contains]. rewrite <- E, prefix_app. reflexivity.
  - cbn [Py.contains]. rewrite IH. apply orb_true_r.
Qed.

Lemma string_app_assoc (a b c : string) :
  ((a ++ b) ++ c = a ++ b ++ c)%string.
Proof. induction a as [|x a IH]; [reflexivity|]. cbn. now rewrite IH. Qed.

Lemma string_app_nil_r (a : string) : (a ++ "")%string = a.
Proof. induction a as [|x a IH]; [reflexivity|]. cbn. now rewrite IH. Qed.

Lemma contains_app_end (n before : string) :
  Py.contains n (before ++ n) = true.
Proof.
  rewrite <- (string_app_nil_r n) at 2. apply contains_app.
Qed.

(** X4: [_error] prints one line, which holds the word ERROR and the
  message (and is just ERROR, a space and the message when standard output
  is no terminal), touches nothing else and never returns: it raises
  SystemExit with the code given. *)
Theorem _error_prints_and_exits msg code w :
  exists line,
    _error msg code w
    = (World (host w) (isatty w) (trace w ++ [EvPrint line]),
       inl (SystemExit code))
    /\ Py.contains "ERROR" line = true
    /\ Py.contains msg line = true
    /\ (isatty w = false -> line = ("ERROR " ++ msg)%string).
Proof.
  rewrite _error_spec. eexists. split; [reflexivity|split; [|split]].
  - destruct (isatty w); cbv beta iota.
    + rewrite !string_app_assoc. apply contains_app.
    + apply (contains_app "ERROR" "").
  - destruct (isatty w); cbv beta iota;
      rewrite <- string_app_assoc; apply contains_app_end.
  - now intros ->.
Qed.

(** ** What comes back, when the buffer keeps its size *)

(** X5: if the transport leaves the buffer at the size it had, a CONTROL call
  without payload whose transfer succeeds gets an empty buffer back and
  returns None: no status byte is looked at. *)
Theorem request_control_returns_none
    self index value data size timeout w w1 reply :
  (forall h rt rq v i buffer len tmo hs hs' reply',
      _controlTransfer h rt rq v i buffer len tmo hs = (hs', inr reply') ->
      List.length reply' = List.length buffer) ->
  Py.truthy data = false ->
  request_transfer self (Request_member CONTROL) index value data size timeout w
  = (w1, inr reply) ->
  reply = []
  /\ request self (Request_member CONTROL) index value data size timeout w
     = (settled w1, inr None).
Proof.
  intros Hlen Hdata Ht.
  assert (E : reply = []).
  { rewrite request_transfer_spec in Ht. cbn [request_encode] in Ht.
    unfold Py.bytearray in Ht. rewrite Hdata in Ht.
    cbn [Py.bytearray_of_size Z.ltb Z.compare Z.to_nat repeat] in Ht.
    cbv zeta in Ht. cbn [Enum.getattr_value] in Ht.
    destruct (_dev self) as [h|]; [|discriminate Ht].
    destruct (_controlTransfer _ _ _ _ _ _ _ _ _) as [h' [e|reply']] eqn:Hx;
      [discriminate Ht|].
    injection Ht as _ <-. apply Hlen in Hx. now destruct reply'. }
  split; [exact E|]. subst reply.
  now rewrite (request_after_transfer _ _ _ _ _ _ _ _ _ _ Ht).
Qed.

(** X6: if the transport leaves the buffer at the size it had, what a call
  returns has as many elements as the buffer sent: as the payload when there
  is one, as the computed size otherwise; None stands for no element. *)
Theorem request_result_length
    self kind index value data size timeout w w' v :
  (forall h rt rq v i buffer len tmo hs hs' reply',
      _controlTransfer h rt rq v i buffer len tmo hs = (hs', inr reply') ->
      List.length reply' = List.length buffer) ->
  request self kind index value data size timeout w = (w', inr v) ->
  exists request_type size',
    request_encode kind size = inr (request_type, size')
    /\ List.length (Py.elements v)
       = if Py.truthy data then List.length (Py.elements data)
         else Z.to_nat size'.
Proof.
  intros Hlen H.
  destruct (request_transfer self kind index value data size timeout w)
    as [w1 [e|reply]] eqn:Ht.
  { rewrite (request_transfer_raises _ _ _ _ _ _ _ _ _ _ Ht) in H.
    discriminate H. }
  rewrite (request_after_transfer _ _ _ _ _ _ _ _ _ _ Ht) in H.
  rewrite request_transfer_spec in Ht.
  destruct (request_encode kind size) as [e|[rt sz]]; [discriminate Ht|].
  exists rt, sz. split; [reflexivity|].
  destruct (Py.bytearray data sz) as [e|buffer] eqn:Hb; [discriminate Ht|].
  cbv zeta in Ht.
  destruct (Enum.getattr_value kind) as [e|code]; [discriminate Ht|].
  destruct (_dev self) as [h|]; [|discriminate Ht].
  destruct (_controlTransfer _ _ _ _ _ _ _ _ _) as [h' [e|reply']] eqn:Hx;
    [discriminate Ht|].
  injection Ht as _ <-. apply Hlen in Hx.
  assert (Hv : List.length (Py.elements v) = List.length buffer).
  { rewrite <- Hx. destruct reply' as [|b reply'].
    - rewrite request_decode_empty in H. now injection H as _ <-.
    - rewrite request_decode_nonempty in H by discriminate. cbv zeta in H.
      destruct (_ =? 0x08); [|discriminate H].
      injection H as _ <-. cbn [Py.elements].
      apply (length_map Py.int_from_bytes (b :: reply')). }
  rewrite Hv. unfold Py.bytearray in Hb.
  destruct (Py.truthy data).
  - apply bytearray_of_list_inv in Hb. rewrite <- Hb. symmetry. apply length_map.
  - apply bytearray_of_size_inv in Hb. destruct Hb as [_ ->]. apply repeat_length.
Qed.

(** X7: the status test is made on whatever the buffer holds after the
  transfer.  A payload the transport leaves as it was sent comes back as the
  same list when its last element is 8, and as the error that names its
  last element otherwise. *)
Theorem request_payload_echo self h r index value x l size timeout w h' :
  _dev self = Some h ->
  Forall (fun z => 0 <= z <= 255) (x :: l) ->
  (forall request_type size' buffer,
      request_encode (Request_member r) size = inr (request_type, size') ->
      Py.bytearray_of_list (x :: l) = inr buffer ->
      _controlTransfer h request_type (Enum.value r) value index buffer
                       (Py.sizeof buffer) timeout (host w)
      = (h', inr buffer)) ->
  snd (request self (Request_member r) index value (Some (x :: l)) size
               timeout w)
  = if last (x :: l) 0 =? 0x08 then inr (Some (x :: l))
    else inl (RuntimeError ("Received error from the device: "
                            ++ Py.str (last (x :: l) 0))).
Proof.
  intros Hdev Hrange Hecho.
  destruct (bytearray_of_list_in_range _ Hrange) as [buffer Hb].
  assert (Henc : exists rt sz,
             request_encode (Request_member r) size = inr (rt, sz))
    by (destruct r; cbn; eauto).
  destruct Henc as (rt & sz & Henc).
  pose proof (bytearray_of_list_inv _ _ Hb) as Hmap.
  assert (Ht : request_transfer self (Request_member r) index value
                 (Some (x :: l)) size timeout w
               = (World h' (isatty w)
                    (trace w ++ [EvDebug (LogWrite index value (x :: l));
                                 EvTransfer rt (Enum.value r) value index buffer
                                            (Py.sizeof buffer) timeout]),
                  inr buffer)).
  { rewrite request_transfer_spec, Henc. unfold Py.bytearray.
    cbn [Py.truthy Py.elements]. rewrite Hb. cbv zeta.
    cbn [Enum.getattr_value]. rewrite Hdev.
    now rewrite (Hecho rt sz buffer Henc Hb). }
  rewrite (request_after_transfer _ _ _ _ _ _ _ _ _ _ Ht).
  assert (Hne : buffer <> []) by (intros ->; discriminate Hmap).
  rewrite request_decode_nonempty by exact Hne. cbv zeta. rewrite Hmap.
  now destruct (_ =? 0x08).
Qed.

(** ** What a call and a run cost *)

Lemma transfers_app (a b : list event) :
  transfers (a ++ b) = transfers a ++ transfers b.
Proof. apply filter_app. Qed.

Lemma slept_app (a b : list event) :
  (slept (a ++ b) == slept a + slept b)%Q.
Proof.
  induction a as [|e a IH]; cbn [app slept]; [lra|].
  destruct e; try exact IH. lra.
Qed.

Lemma Spends_eq {A} (n n' : nat) (s s' : Q) (m : M A) :
  Spends n s m -> n = n' -> (s == s')%Q -> Spends n' s' m.
Proof.
  intros [Hs H] <- E. split; [lra|]. intros w.
  destruct (H w) as (delta & Hd & Hn & Hq & Hr).
  exists delta. repeat split; try assumption; try lra.
  - now apply Hr with a.
  - destruct (Hr a) as [_ Hq']; [assumption|lra].
Qed.

Lemma Spends_lift {A} (r : exception + A) : Spends 0 0 (lift r).
Proof.
  split; [lra|]. intros w. exists []. cbn. rewrite app_nil_r.
  repeat split; try lra; auto.
Qed.

Lemma Spends_ret {A} (a : A) : Spends 0 0 (ret a).
Proof. exact (Spends_lift (inr a)). Qed.

Lemma Spends_emit (e : event) :
  is_transfer e = false -> (forall secs, e <> EvSleep secs) ->
  Spends 0 0 (emit e).
Proof.
  intros He Hs. split; [lra|]. intros w. exists [e].
  cbn [emit fst snd trace]. split; [reflexivity|].
  assert (Ht : transfers [e] = []) by (unfold transfers; cbn; now rewrite He).
  assert (Hz : slept [e] = 0%Q)
    by (destruct e; try reflexivity; now elim (Hs secs)).
  rewrite Ht, Hz. cbn. repeat split; try lra; auto.
Qed.

Lemma Spends_sleep (secs : Q) : (0 <= secs)%Q -> Spends 0 secs (sleep secs).
Proof.
  intros H. split; [exact H|]. intros w. exists [EvSleep secs].
  cbn. repeat split; try lra; auto.
Qed.

Lemma Spends_bind {A B} (n1 n2 : nat) (s1 s2 : Q) (m : M A) (f : A -> M B) :
  Spends n1 s1 m -> (forall a, Spends n2 s2 (f a)) ->
  (0 <= s2)%Q ->
  Spends (n1 + n2) (s1 + s2) (bind m f).
Proof.
  intros [Hs1 Hm] Hf Hs2. split; [lra|]. intros w. unfold bind.
  destruct (Hm w) as (d1 & Ht1 & Hn1 & Hq1 & Hr1).
  destruct (m w) as [w1 [e|a]]; cbn [fst snd] in *.
  - exists d1. repeat split; try assumption; try lia; try lra; discriminate.
  - destruct (Hf a) as [_ Hfa].
    destruct (Hfa w1) as (d2 & Ht2 & Hn2 & Hq2 & Hr2).
    destruct (Hr1 a eq_refl) as [En1 Eq1].
    exists (d1 ++ d2). rewrite transfers_app, length_app.
    pose proof (slept_app d1 d2) as Hsl.
    split; [now rewrite Ht2, Ht1, app_assoc|].
    split; [lia|]. split; [lra|].
    intros b Hb. destruct (Hr2 b Hb) as [En2 Eq2]. split; [lia|lra].
Qed.

Lemma Spends_error msg code : Spends 0 0 (_error msg code).
Proof.
  split; [lra|]. intros w. rewrite _error_spec. eexists.
  cbn [fst snd trace]. split; [reflexivity|].
  cbn. repeat split; try lra; auto; discriminate.
Qed.

Lemma Spends_open vendor product :
  Spends 0 0 (ctx_openByVendorIDAndProductID vendor product).
Proof.
  split; [lra|]. intros w. unfold ctx_openByVendorIDAndProductID.
  destruct (openByVendorIDAndProductID _ _ _) as [h r].
  exists []. cbn. rewrite app_nil_r. repeat split; try lra; auto.
Qed.

Lemma Spends_request self kind index value data size timeout :
  Spends 1 SETTLE (request self kind index value data size timeout).
Proof.
  pose proof SETTLE_nonneg as Hs. split; [exact Hs|]. intros w.
  destruct (request_trace self kind index value data size timeout w)
    as [delta [Hd Hc]].
  exists delta. split; [exact Hd|].
  destruct Hc as [[[e He] [->|[l ->]]]
                 |(rt & sz & code & buffer & l & _ & _ & _ & Hc)].
  - cbn. repeat split; try lra; auto; congruence.
  - cbn. repeat split; try lra; auto; congruence.
  - cbv zeta in Hc. destruct Hc as [[[e He] ->]|[->|[l' ->]]]; cbn.
    + repeat split; try lra; auto; congruence.
    + repeat split; try lra; auto.
    + repeat split; try lra; auto.
Qed.

Lemma Spends_main : Spends 30 (106 # 100) main.
Proof.
  unfold main, call.
  eapply Spends_eq.
  - repeat first
      [ match goal with
        | |- (0 <= _)%Q => unfold SETTLE; lra
        | |- Spends _ _ (match ?o with Some _ => _ | None => _ end) =>
            destruct o; [apply Spends_ret|apply Spends_error]
        end
      | apply Spends_request
      | apply Spends_open
      | apply Spends_ret
      | apply Spends_sleep; lra
      | eapply Spends_bind; [|intros ?; cbv zeta|] ].
  - reflexivity.
  - unfold SETTLE. lra.
Qed.

Lemma Spends_program argv : Spends 30 (106 # 100) (program argv).
Proof.
  unfold program.
  apply (Spends_eq (0 + 30) 30 (0 + (106 # 100)) (106 # 100));
    [|reflexivity|lra].
  apply Spends_bind; [|intros _; apply Spends_main|lra].
  destruct (existsb _ _); [|apply Spends_ret].
  apply Spends_emit; [reflexivity|discriminate].
Qed.

(** X8: a call never tries twice: it adds one transfer at most to the trace
  and sleeps for the settle time at most; a call that returns has made just
  one transfer and slept just that long. *)
Theorem request_no_retry self kind index value data size timeout w :
  exists delta,
    trace (fst (request self kind index value data size timeout w))
    = trace w ++ delta
    /\ (List.length (transfers delta) <= 1)%nat
    /\ (0 <= slept delta <= SETTLE)%Q
    /\ (forall v,
          snd (request self kind index value data size timeout w) = inr v ->
          List.length (transfers delta) = 1%nat /\ (slept delta == SETTLE)%Q).
Proof.
  exact (proj2 (Spends_request self kind index value data size timeout) w).
Qed.

(** X9: whatever the USB side does, a run of the program makes 30 transfers
  at most and sleeps for 1.06 s at most (the 30 settle pauses and the pause
  of one second); a run that reaches the end has made just 30 transfers and
  slept just 1.06 s. *)
Theorem program_budget argv w :
  exists delta,
    trace (fst (program argv w)) = trace w ++ delta
    /\ (List.length (transfers delta) <= 30)%nat
    /\ (0 <= slept delta <= 106 # 100)%Q
    /\ (snd (program argv w) = inr tt ->
        List.length (transfers delta) = 30%nat
        /\ (slept delta == 106 # 100)%Q).
Proof.
  destruct (proj2 (Spends_program argv) w) as (delta & Hd & Hn & Hq & Hr).
  exists delta. repeat split; try assumption; try lra.
  - now apply Hr with tt.
  - destruct (Hr tt) as [_ Hq']; [assumption|lra].
Qed.

(** ** A run with a device that acknowledges *)

Lemma Returns_ret {A} (a : A) : Returns (ret a).
Proof. intros w. now exists w, a. Qed.

Lemma Returns_emit (e : event) : Returns (emit e).
Proof. intros w. eexists. exists tt. reflexivity. Qed.

Lemma Returns_bind {A B} (m : M A) (f : A -> M B) :
  Returns m -> (forall a, Returns (f a)) -> Returns (bind m f).
Proof.
  intros Hm Hf w. destruct (Hm w) as (w1 & a & E).
  rewrite (bind_inr _ _ _ _ _ E). apply Hf.
Qed.

Section Acknowledging.

(** The transport never fails, and what it leaves in the buffer is empty or
  ends in 0x08. *)
Hypothesis acked :
  forall h rt rq v i buffer len tmo hs,
  exists hs' reply,
    _controlTransfer h rt rq v i buffer len tmo hs = (hs', inr reply)
    /\ (reply = [] \/ last reply x00 = x08).

Lemma Returns_call hd kind index value size :
  (forall s, size = Some s -> 0 <= s) ->
  Returns (call {| _dev := Some hd |} kind index value size).
Proof.
  intros Hsize w. unfold call.
  assert (Henc : exists rt sz,
             request_encode (Request_member kind) size = inr (rt, sz)
             /\ 0 <= sz).
  { destruct kind; cbn; eexists; eexists; (split; [reflexivity|]);
      try lia; destruct size as [s|]; try lia; now apply Hsize. }
  destruct Henc as (rt & sz & Henc & Hsz).
  destruct (acked hd rt (Enum.value kind) value index
                  (repeat x00 (Z.to_nat sz))
                  (Py.sizeof (repeat x00 (Z.to_nat sz))) 0 (host w))
    as (hs' & reply & Hx & Hreply).
  assert (Ht : request_transfer {| _dev := Some hd |} (Request_member kind)
                 index value None size 0 w
               = (World hs' (isatty w)
                    (trace w
                     ++ [EvDebug (LogSend index value);
                         EvTransfer rt (Enum.value kind) value index
                           (repeat x00 (Z.to_nat sz))
                           (Py.sizeof (repeat x00 (Z.to_nat sz))) 0]),
                  inr reply)).
  { rewrite request_transfer_spec, Henc.
    unfold Py.bytearray, Py.bytearray_of_size. cbn [Py.truthy].
    destruct (Z.ltb_spec sz 0); [lia|]. cbv zeta.
    cbn [Enum.getattr_value _dev]. now rewrite Hx. }
  rewrite (request_after_transfer _ _ _ _ _ _ _ _ _ _ Ht).
  destruct reply as [|b reply]; [rewrite request_decode_empty; eauto|].
  rewrite request_decode_nonempty by discriminate. cbv zeta.
  rewrite (last_map_nonempty _ _ x00) by discriminate.
  destruct Hreply as [Hreply|Hreply]; [discriminate Hreply|].
  rewrite Hreply. cbn [Py.int_from_bytes Byte.to_N Z.of_N Z.eqb Pos.eqb].
  eauto.
Qed.

Lemma main_returns w h1 hd :
  openByVendorIDAndProductID 0x0547 0x4d33 (host w) = (h1, inr (Some hd)) ->
  exists w', main w = (w', inr tt).
Proof.
  intros Hopen. unfold main.
  erewrite bind_inr
    by (unfold ctx_openByVendorIDAndProductID; rewrite Hopen; reflexivity).
  match goal with
  | |- exists w', ?m ?w1 = _ =>
      assert (R : Returns m);
      [|destruct (R w1) as (w' & [] & E); now exists w']
  end.
  repeat first
    [ apply Returns_ret
    | apply Returns_emit
    | apply Returns_call; intros s [= <-]; lia
    | apply Returns_bind; [|intros ?; cbv zeta] ].
Qed.

(** X10: when the device is found and acknowledges every transfer, the
  program runs to its end: status 0, after just 30 transfers and 1.06 s of
  pauses. *)
Theorem program_completes argv w h1 hd :
  openByVendorIDAndProductID 0x0547 0x4d33 (host w) = (h1, inr (Some hd)) ->
  snd (program argv w) = inr tt
  /\ exit_status (snd (program argv w)) = 0
  /\ exists delta,
      trace (fst (program argv w)) = trace w ++ delta
      /\ List.length (transfers delta) = 30%nat
      /\ (slept delta == 106 # 100)%Q.
Proof.
  intros Hopen.
  assert (E : snd (program argv w) = inr tt).
  { unfold program.
    destruct (existsb _ _).
    - erewrite bind_inr by reflexivity.
      destruct (main_returns (World (host w) (isatty w)
                                    (trace w ++ [EvBasicConfig])) h1 hd Hopen)
        as [w' ->].
      reflexivity.
    - erewrite bind_inr by reflexivity.
      destruct (main_returns w h1 hd Hopen) as [w' ->]. reflexivity. }
  split; [exact E|split; [now rewrite E|]].
  destruct (proj2 (Spends_program argv) w) as (delta & Hd & _ & _ & Hr).
  exists delta. split; [exact Hd|]. now apply Hr with tt.
Qed.

End Acknowledging.

(** ** The transfers of the script *)

Lemma Only_lift {A} ok (r : exception + A) : Only ok (lift r).
Proof. intros w. exists []. cbn. rewrite app_nil_r. now split. Qed.

Lemma Only_emit ok (e : event) : ok e -> Only ok (emit e).
Proof. intros He w. exists [e]. split; [reflexivity|]. now constructor. Qed.

Lemma Only_bind {A B} ok (m : M A) (f : A -> M B) :
  Only ok m -> (forall a, Only ok (f a)) -> Only ok (bind m f).
Proof.
  intros Hm Hf w. unfold bind.
  destruct (Hm w) as (d1 & Ht1 & Hd1).
  destruct (m w) as [w1 [e|a]]; cbn [fst] in *.
  - now exists d1.
  - destruct (Hf a w1) as (d2 & Ht2 & Hd2).
    exists (d1 ++ d2). split; [now rewrite Ht2, Ht1, app_assoc|].
    apply Forall_app. now split.
Qed.

Lemma Only_script_call dev kind index value size :
  kind = CONTROL \/ kind = REG_READ /\ size = Some 3
  \/ kind = REG_WRITE /\ size = None ->
  Only script_transfer (call dev kind index value size).
Proof.
  intros Hk w. unfold call.
  destruct (request_transfers_in dev (Request_member kind) index value None
              size 0 w) as [delta [Hd Hin]].
  exists delta. split; [exact Hd|].
  apply Forall_forall. intros e He.
  destruct e as [| |rt rq v i buffer len tmo| |]; try exact I.
  destruct (Hin _ He eq_refl) as (rt' & sz & code & buffer' & H1 & H2 & H3 & E).
  injection E as -> -> _ _ -> -> ->.
  cbn [Enum.getattr_value] in H3. injection H3 as <-.
  unfold Py.bytearray in H2. cbn [Py.truthy] in H2.
  cbn [script_transfer]. split; [reflexivity|split; [reflexivity|]].
  destruct Hk as [->|[[-> ->]|[-> ->]]]; cbn in H1; injection H1 as <- <-;
    cbn in H2; injection H2 as <-; cbn; auto 6.
Qed.

Lemma Only_script_main : Only script_transfer main.
Proof.
  unfold main.
  repeat first
    [ apply Only_script_call; auto 6
    | apply Only_lift
    | apply Only_emit; exact I
    | apply Only_bind; [|intros ?; cbv zeta] ].
  - intros w. unfold ctx_openByVendorIDAndProductID.
    destruct (openByVendorIDAndProductID _ _ _) as [h r].
    exists []. cbn. rewrite app_nil_r. now split.
  - match goal with
    | |- Only _ (match ?o with Some _ => _ | None => _ end) => destruct o
    end; [apply Only_lift|].
    intros w. rewrite _error_spec. eexists. split; [reflexivity|].
    now constructor.
Qed.

(** X11: whatever the USB side does, every transfer of a run is one of three
  shapes: 0x40 with code 1 and no data, 0xc0 with code 10 and three zero
  bytes, or 0xc0 with code 11 and one zero byte; each is made with timeout 0
  and with the size of its buffer as length.  The script never sends a
  payload. *)
Theorem program_transfers argv w :
  exists delta,
    trace (fst (program argv w)) = trace w ++ delta
    /\ Forall script_transfer delta.
Proof.
  unfold program.
  apply Only_bind; [|intros _; apply Only_script_main].
  destruct (existsb _ _); [apply Only_emit; exact I|apply Only_lift].
Qed.

End Session.

(** * The properties on the bench

  Each statement below runs the model against the bench double: the premises
  of the property are met by an actual run, and the conclusion is the value
  the run gives. *)

Local Abbreviation bench_request :=
  (request Bench.host Bench.handle Bench._controlTransfer).
Local Abbreviation bench_transfer :=
  (request_transfer Bench.host Bench.handle Bench._controlTransfer).
Local Abbreviation bench_program :=
  (program Bench.host Bench.handle Bench.openByVendorIDAndProductID
           Bench._controlTransfer).
Local Abbreviation bench_dev := (Build_ScopetekDevice Bench.handle (Some tt)).
Local Abbreviation plugged replies := (Bench.boot (Bench.Host true replies)).

(** REG_READ of three bytes answered 01 02 05: the status 5 is raised. *)
Lemma request_status_mismatch_witness :
  bench_transfer bench_dev (Request_member REG_READ) 0 0 None (Some 3) 0
                 (plugged [[x01; x02; x05]])
  = (World (Bench.Host true [])  false
           [EvDebug (LogSend 0 0);
            EvTransfer 0xc0 10 0 0 [x00; x00; x00] 3 0],
     inr [x01; x02; x05])
  /\ [x01; x02; x05] <> []
  /\ last [x01; x02; x05] x00 <> x08
  /\ bench_request bench_dev (Request_member REG_READ) 0 0 None (Some 3) 0
                   (plugged [[x01; x02; x05]])
     = (World (Bench.Host true []) false
              [EvDebug (LogSend 0 0);
               EvTransfer 0xc0 10 0 0 [x00; x00; x00] 3 0;
               EvSleep SETTLE;
               EvDebug (LogRead 0 0 [1; 2; 5])],
        inl (RuntimeError "Received error from the device: 5")).
Proof.
  split; [reflexivity|split; [discriminate|split; [discriminate|]]].
  apply (request_status_mismatch Bench.host Bench.handle Bench._controlTransfer
           bench_dev (Request_member REG_READ) 0 0 None (Some 3) 0
           (plugged [[x01; x02; x05]])
           (World (Bench.Host true []) false
                  [EvDebug (LogSend 0 0);
                   EvTransfer 0xc0 10 0 0 [x00; x00; x00] 3 0])
           [x01; x02; x05]);
    [reflexivity|discriminate|discriminate].
Defined.

(** A CONTROL call sends nothing and gets nothing back: None. *)
Lemma request_empty_response_witness :
  bench_transfer bench_dev (Request_member CONTROL) 0x000f 0x0001 None None 0
                 (plugged [])
  = (World (Bench.Host true []) false
           [EvDebug (LogSend 0x000f 0x0001); EvTransfer 0x40 1 0x0001 0x000f [] 0 0],
     inr [])
  /\ bench_request bench_dev (Request_member CONTROL) 0x000f 0x0001 None None 0
                   (plugged [])
     = (World (Bench.Host true []) false
              [EvDebug (LogSend 0x000f 0x0001);
               EvTransfer 0x40 1 0x0001 0x000f [] 0 0;
               EvSleep SETTLE],
        inr None).
Proof.
  split; [reflexivity|].
  apply (request_empty_response Bench.host Bench.handle Bench._controlTransfer
           bench_dev (Request_member CONTROL) 0x000f 0x0001 None None 0
           (plugged [])
           (World (Bench.Host true []) false
                  [EvDebug (LogSend 0x000f 0x0001);
                   EvTransfer 0x40 1 0x0001 0x000f [] 0 0])).
  reflexivity.
Defined.

(** REG_READ of three bytes answered 01 02 08: the three integers. *)
Lemma request_success_witness :
  bench_transfer bench_dev (Request_member REG_READ) 0 0 None (Some 3) 0
                 (plugged [[x01; x02; x08]])
  = (World (Bench.Host true []) false
           [EvDebug (LogSend 0 0);
            EvTransfer 0xc0 10 0 0 [x00; x00; x00] 3 0],
     inr [x01; x02; x08])
  /\ [x01; x02; x08] <> []
  /\ last [x01; x02; x08] x00 = x08
  /\ bench_request bench_dev (Request_member REG_READ) 0 0 None (Some 3) 0
                   (plugged [[x01; x02; x08]])
     = (World (Bench.Host true []) false
              [EvDebug (LogSend 0 0);
               EvTransfer 0xc0 10 0 0 [x00; x00; x00] 3 0;
               EvSleep SETTLE;
               EvDebug (LogRead 0 0 [1; 2; 8])],
        inr (Some [1; 2; 8])).
Proof.
  split; [reflexivity|split; [discriminate|split; [reflexivity|]]].
  apply (request_success Bench.host Bench.handle Bench._controlTransfer
           bench_dev (Request_member REG_READ) 0 0 None (Some 3) 0
           (plugged [[x01; x02; x08]])
           (World (Bench.Host true []) false
                  [EvDebug (LogSend 0 0);
                   EvTransfer 0xc0 10 0 0 [x00; x00; x00] 3 0])
           [x01; x02; x08]);
    [reflexivity|discriminate|reflexivity].
Defined.

(** A REG_WRITE acknowledged by 08 returns [8]. *)
Lemma request_result_invariant_witness :
  bench_request bench_dev (Request_member REG_WRITE) 0x0022 0x0033 None None 0
                (plugged [[x08]])
  = (World (Bench.Host true []) false
           [EvDebug (LogSend 0x0022 0x0033);
            EvTransfer 0xc0 11 0x0033 0x0022 [x00] 1 0;
            EvSleep SETTLE;
            EvDebug (LogRead 0x0022 0x0033 [8])],
     inr (Some [8]))
  /\ ([8] <> [] /\ Forall (fun x => 0 <= x <= 255) [8] /\ last [8] 0 = 0x08).
Proof.
  split; [reflexivity|].
  apply (request_result_invariant Bench.host Bench.handle Bench._controlTransfer
           bench_dev (Request_member REG_WRITE) 0x0022 0x0033 None None 0
           (plugged [[x08]])
           (World (Bench.Host true []) false
                  [EvDebug (LogSend 0x0022 0x0033);
                   EvTransfer 0xc0 11 0x0033 0x0022 [x00] 1 0;
                   EvSleep SETTLE;
                   EvDebug (LogRead 0x0022 0x0033 [8])])
           [8]).
  reflexivity.
Defined.

(** The integer 1 is not the member CONTROL. *)
Lemma request_unknown_kind_witness :
  (forall r, PyInt 1 <> Request_member r)
  /\ bench_request bench_dev (PyInt 1) 0x000f 0x0001 None None 0 (plugged [[x08]])
     = (plugged [[x08]], inl (TypeError "Unknown request")).
Proof.
  split; [discriminate|].
  apply (request_unknown_kind Bench.host Bench.handle Bench._controlTransfer
           bench_dev (PyInt 1) 0x000f 0x0001 None None 0 (plugged [[x08]])).
  discriminate.
Defined.

(** A CONTROL call given a size and the payload 33: size 0 in the encoding,
  the payload in the transfer. *)
Lemma request_control_witness :
  _dev Bench.handle bench_dev = Some tt
  /\ Py.bytearray (Some [0x33]) 0 = inr [x33]
  /\ request_encode (Request_member CONTROL) (Some 7) = inr (0x40, 0)
  /\ exists post,
      trace (fst (bench_request bench_dev (Request_member CONTROL)
                                0x000f 0x0001 (Some [0x33]) (Some 7) 0
                                (plugged [])))
      = trace (plugged [])
        ++ EvDebug (LogWrite 0x000f 0x0001 [0x33])
        :: EvTransfer 0x40 1 0x0001 0x000f [x33] 1 0
        :: post
      /\ transfers post = [].
Proof.
  split; [reflexivity|split; [reflexivity|]].
  destruct (request_control Bench.host Bench.handle Bench._controlTransfer
              bench_dev tt 0x000f 0x0001 (Some [0x33]) (Some 7) 0 (plugged [])
              [x33] eq_refl eq_refl) as (H1 & _ & H3 & _).
  split; [exact H1|exact H3].
Defined.

(** A REG_WRITE with neither size nor payload: one zero byte is handed over,
  to be written over by the status. *)
Lemma request_register_witness :
  (REG_WRITE = REG_READ \/ REG_WRITE = REG_WRITE)
  /\ _dev Bench.handle bench_dev = Some tt
  /\ Py.bytearray None 1 = inr [x00]
  /\ request_encode (Request_member REG_WRITE) None = inr (0xc0, 1)
  /\ exists post,
      trace (fst (bench_request bench_dev (Request_member REG_WRITE)
                                0x0022 0x0033 None None 0 (plugged [[x08]])))
      = trace (plugged [[x08]])
        ++ EvDebug (LogSend 0x0022 0x0033)
        :: EvTransfer 0xc0 11 0x0033 0x0022 [x00] 1 0
        :: post
      /\ transfers post = [].
Proof.
  split; [now right|split; [reflexivity|split; [reflexivity|]]].
  destruct (request_register Bench.host Bench.handle Bench._controlTransfer
              bench_dev tt REG_WRITE 0x0022 0x0033 None None 0
              (plugged [[x08]]) [x00] (or_intror eq_refl) eq_refl eq_refl)
    as (H1 & _ & _ & _ & _ & H6 & _).
  split; [exact H1|exact H6].
Defined.

(** A REG_WRITE called with an empty list as payload sends one zero byte: the
  buffer handed to the transport is not the payload. *)
Lemma request_empty_payload_counterexample :
  transfers
    (trace (fst (bench_request bench_dev (Request_member REG_WRITE)
                               0x0022 0x0033 (Some []) None 0
                               (plugged [[x08]]))))
  = [EvTransfer 0xc0 11 0x0033 0x0022 [x00] 1 0]
  /\ map Py.int_from_bytes [x00] <> Py.elements (Some []).
Proof. split; [reflexivity|discriminate]. Qed.

Lemma device_not_found_witness :
  Bench.openByVendorIDAndProductID 0x0547 0x4d33 (Bench.Host false [])
  = (Bench.Host false [], inr None)
  /\ exists line,
      bench_program ["DCM130.py"%string] (Bench.boot (Bench.Host false []))
      = (World (Bench.Host false []) false [EvPrint line], inl (SystemExit 1))
      /\ Py.contains "0x0547" line = true
      /\ Py.contains "0x4d33" line = true
      /\ exit_status (snd (bench_program ["DCM130.py"%string]
                                         (Bench.boot (Bench.Host false []))))
         = 1
      /\ transfers
           (trace (fst (bench_program ["DCM130.py"%string]
                                      (Bench.boot (Bench.Host false [])))))
         = [].
Proof.
  split; [reflexivity|].
  apply (device_not_found Bench.host Bench.handle
           Bench.openByVendorIDAndProductID Bench._controlTransfer
           ["DCM130.py"%string] (Bench.boot (Bench.Host false []))
           (Bench.Host false [])).
  reflexivity.
Defined.

(** A CONTROL call given the payload 33 makes a transfer of one byte, not of
  none. *)
Lemma request_control_payload_counterexample :
  transfers
    (trace (fst (bench_request bench_dev (Request_member CONTROL) 0x000f 0x0001
                               (Some [0x33]) (Some 7) 0 (plugged []))))
  = [EvTransfer 0x40 1 0x0001 0x000f [x33] 1 0]
  /\ Py.sizeof [x33] <> 0.
Proof. split; [reflexivity|discriminate]. Qed.

Lemma request_outgoing_buffer_witness :
  exists delta,
    trace (fst (bench_request bench_dev (Request_member REG_WRITE) 0x0022 0x0033
                              (Some [0x33]) None 0 (plugged [[x08]])))
    = trace (plugged [[x08]]) ++ delta
    /\ forall e, In e delta -> is_transfer e = true ->
        exists request_type size' code buffer,
          request_encode (Request_member REG_WRITE) None
          = inr (request_type, size')
          /\ e = EvTransfer request_type code 0x0033 0x0022 buffer
                            (Z.of_nat (List.length buffer)) 0
          /\ map Py.int_from_bytes buffer = [0x33].
Proof.
  apply (request_outgoing_buffer Bench.host Bench.handle Bench._controlTransfer
           bench_dev (Request_member REG_WRITE) 0x0022 0x0033
           (Some [0x33]) None 0 (plugged [[x08]])).
Defined.



(** * The further properties on the bench *)

Local Abbreviation acking_program :=
  (program Bench.host Bench.handle Bench.openByVendorIDAndProductID
           Bench.acking_controlTransfer).

(** The bench transport keeps the size of the buffer. *)
Lemma bench_transfer_keeps_size :
  forall (h : Bench.handle) rt rq v i buffer len tmo hs hs' reply',
    Bench._controlTransfer h rt rq v i buffer len tmo hs = (hs', inr reply') ->
    List.length reply' = List.length buffer.
Proof.
  intros h rt rq v i buffer len tmo hs hs' reply'. unfold Bench._controlTransfer.
  destruct (device_to_host rt).
  - destruct (Bench.replies hs) as [|r rs]; [discriminate|].
    intros [= _ <-]. rewrite length_firstn, length_app, length_skipn. lia.
  - now intros [= _ <-].
Qed.

(** The acknowledging device never fails and leaves 0x08 last. *)
Lemma bench_acking_acked :
  forall (h : Bench.handle) rt rq v i buffer len tmo hs,
  exists hs' reply,
    Bench.acking_controlTransfer h rt rq v i buffer len tmo hs
    = (hs', inr reply)
    /\ (reply = [] \/ last reply x00 = x08).
Proof.
  intros h rt rq v i buffer len tmo hs. unfold Bench.acking_controlTransfer.
  destruct buffer as [|b buffer]; eexists; eexists; (split; [reflexivity|]).
  - now left.
  - right. apply last_last.
Qed.

(** A read on a stalled device: the error of the transport comes out. *)
Lemma request_transport_error_witness :
  _dev Bench.handle bench_dev = Some tt
  /\ request_encode (Request_member REG_READ) (Some 3) = inr (0xc0, 3)
  /\ Py.bytearray None 3 = inr [x00; x00; x00]
  /\ Bench._controlTransfer tt 0xc0 10 0 0 [x00; x00; x00] 3 0
                            (Bench.Host true [])
     = (Bench.Host true [], inl (USBError Bench.LIBUSB_ERROR_PIPE))
  /\ bench_request bench_dev (Request_member REG_READ) 0 0 None (Some 3) 0
                   (plugged [])
     = (World (Bench.Host true []) false
              [EvDebug (LogSend 0 0);
               EvTransfer 0xc0 10 0 0 [x00; x00; x00] 3 0],
        inl (USBError Bench.LIBUSB_ERROR_PIPE)).
Proof.
  do 4 (split; [reflexivity|]).
  apply (request_transport_error Bench.host Bench.handle Bench._controlTransfer
           bench_dev tt REG_READ 0 0 None (Some 3) 0 (plugged [])
           0xc0 3 [x00; x00; x00] (Bench.Host true [])
           (USBError Bench.LIBUSB_ERROR_PIPE));
    reflexivity.
Defined.

Lemma request_payload_out_of_range_witness :
  Exists (fun z => z < 0 \/ 255 < z) [0x33; 256]
  /\ bench_request bench_dev (Request_member REG_WRITE) 0x0022 0x0033
                   (Some [0x33; 256]) None 0 (plugged [[x08]])
     = (plugged [[x08]], inl (ValueError "byte must be in range(0, 256)")).
Proof.
  assert (H : Exists (fun z => z < 0 \/ 255 < z) [0x33; 256])
    by (apply Exists_cons_tl, Exists_cons_hd; lia).
  split; [exact H|].
  apply (request_payload_out_of_range Bench.host Bench.handle
           Bench._controlTransfer bench_dev REG_WRITE 0x0022 0x0033
           0x33 [256] None 0 (plugged [[x08]]) H).
Defined.


Lemma request_control_returns_none_witness :
  (forall (h : Bench.handle) rt rq v i buffer len tmo hs hs' reply',
      Bench._controlTransfer h rt rq v i buffer len tmo hs = (hs', inr reply') ->
      List.length reply' = List.length buffer)
  /\ Py.truthy (Some []) = false
  /\ bench_transfer bench_dev (Request_member CONTROL) 0x000f 0x0003
                    (Some []) (Some 7) 0 (plugged [[x05]])
     = (World (Bench.Host true [[x05]]) false
              [EvDebug (LogSend 0x000f 0x0003);
               EvTransfer 0x40 1 0x0003 0x000f [] 0 0],
        inr [])
  /\ bench_request bench_dev (Request_member CONTROL) 0x000f 0x0003
                   (Some []) (Some 7) 0 (plugged [[x05]])
     = (World (Bench.Host true [[x05]]) false
              [EvDebug (LogSend 0x000f 0x0003);
               EvTransfer 0x40 1 0x0003 0x000f [] 0 0;
               EvSleep SETTLE],
        inr None).
Proof.
  split; [exact bench_transfer_keeps_size|].
  split; [reflexivity|split; [reflexivity|]].
  apply (request_control_returns_none Bench.host Bench.handle
           Bench._controlTransfer bench_dev 0x000f 0x0003 (Some []) (Some 7) 0
           (plugged [[x05]])
           (World (Bench.Host true [[x05]]) false
                  [EvDebug (LogSend 0x000f 0x0003);
                   EvTransfer 0x40 1 0x0003 0x000f [] 0 0])
           [] bench_transfer_keeps_size);
    reflexivity.
Defined.

(** A read of three bytes returns three integers. *)
Lemma request_result_length_witness :
  (forall (h : Bench.handle) rt rq v i buffer len tmo hs hs' reply',
      Bench._controlTransfer h rt rq v i buffer len tmo hs = (hs', inr reply') ->
      List.length reply' = List.length buffer)
  /\ bench_request bench_dev (Request_member REG_READ) 0 0 None (Some 3) 0
                   (plugged [[x01; x02; x08]])
     = (World (Bench.Host true []) false
              [EvDebug (LogSend 0 0);
               EvTransfer 0xc0 10 0 0 [x00; x00; x00] 3 0;
               EvSleep SETTLE;
               EvDebug (LogRead 0 0 [1; 2; 8])],
        inr (Some [1; 2; 8]))
  /\ exists request_type size',
      request_encode (Request_member REG_READ) (Some 3)
      = inr (request_type, size')
      /\ List.length (Py.elements (Some [1; 2; 8]))
         = if Py.truthy None then List.length (Py.elements None)
           else Z.to_nat size'.
Proof.
  split; [exact bench_transfer_keeps_size|split; [reflexivity|]].
  apply (request_result_length Bench.host Bench.handle Bench._controlTransfer
           bench_dev (Request_member REG_READ) 0 0 None (Some 3) 0
           (plugged [[x01; x02; x08]])
           (World (Bench.Host true []) false
                  [EvDebug (LogSend 0 0);
                   EvTransfer 0xc0 10 0 0 [x00; x00; x00] 3 0;
                   EvSleep SETTLE;
                   EvDebug (LogRead 0 0 [1; 2; 8])])
           (Some [1; 2; 8]) bench_transfer_keeps_size).
  reflexivity.
Defined.

(** A CONTROL call given the payload 33: the bench leaves it as it is, and the
  call takes its last byte for a status. *)
Lemma request_payload_echo_witness :
  _dev Bench.handle bench_dev = Some tt
  /\ Forall (fun z => 0 <= z <= 255) [0x33]
  /\ (forall request_type size' buffer,
        request_encode (Request_member CONTROL) None
        = inr (request_type, size') ->
        Py.bytearray_of_list [0x33] = inr buffer ->
        Bench._controlTransfer tt request_type (Enum.value CONTROL)
                               0x0001 0x000f buffer (Py.sizeof buffer) 0
                               (Bench.Host true [])
        = (Bench.Host true [], inr buffer))
  /\ snd (bench_request bench_dev (Request_member CONTROL) 0x000f 0x0001
                        (Some [0x33]) None 0 (plugged []))
     = inl (RuntimeError "Received error from the device: 51").
Proof.
  assert (Hr : Forall (fun z => 0 <= z <= 255) [0x33])
    by (repeat constructor; lia).
  assert (He : forall request_type size' buffer,
             request_encode (Request_member CONTROL) None
             = inr (request_type, size') ->
             Py.bytearray_of_list [0x33] = inr buffer ->
             Bench._controlTransfer tt request_type (Enum.value CONTROL)
                                    0x0001 0x000f buffer (Py.sizeof buffer) 0
                                    (Bench.Host true [])
             = (Bench.Host true [], inr buffer))
    by (intros rt sz buffer [= <- <-] _; reflexivity).
  split; [reflexivity|split; [exact Hr|split; [exact He|]]].
  apply (request_payload_echo Bench.host Bench.handle Bench._controlTransfer
           bench_dev tt CONTROL 0x000f 0x0001 0x33 [] None 0 (plugged [])
           (Bench.Host true []) eq_refl Hr He).
Defined.

(** A read acknowledged by the device: one transfer, one pause. *)
Lemma request_no_retry_witness :
  exists delta,
    trace (fst (bench_request bench_dev (Request_member REG_READ) 0 0
                              None (Some 3) 0 (plugged [[x01; x02; x08]])))
    = trace (plugged [[x01; x02; x08]]) ++ delta
    /\ (List.length (transfers delta) <= 1)%nat
    /\ (0 <= slept delta <= SETTLE)%Q
    /\ (forall v,
          snd (bench_request bench_dev (Request_member REG_READ) 0 0
                             None (Some 3) 0 (plugged [[x01; x02; x08]]))
          = inr v ->
          List.length (transfers delta) = 1%nat /\ (slept delta == SETTLE)%Q).
Proof.
  apply (request_no_retry Bench.host Bench.handle Bench._controlTransfer
           bench_dev (Request_member REG_READ) 0 0 None (Some 3) 0
           (plugged [[x01; x02; x08]])).
Defined.

(** A run against a device that stalls on the first read: four transfers. *)
Lemma program_budget_witness :
  exists delta,
    trace (fst (bench_program ["DCM130.py"%string] (plugged [])))
    = trace (plugged []) ++ delta
    /\ (List.length (transfers delta) <= 30)%nat
    /\ (0 <= slept delta <= 106 # 100)%Q
    /\ (snd (bench_program ["DCM130.py"%string] (plugged [])) = inr tt ->
        List.length (transfers delta) = 30%nat
        /\ (slept delta == 106 # 100)%Q).
Proof.
  apply (program_budget Bench.host Bench.handle
           Bench.openByVendorIDAndProductID Bench._controlTransfer
           ["DCM130.py"%string] (plugged [])).
Defined.

(** The whole bring-up against the acknowledging device. *)
Lemma program_completes_witness :
  (forall (h : Bench.handle) rt rq v i buffer len tmo hs,
    exists hs' reply,
      Bench.acking_controlTransfer h rt rq v i buffer len tmo hs
      = (hs', inr reply)
      /\ (reply = [] \/ last reply x00 = x08))
  /\ Bench.openByVendorIDAndProductID 0x0547 0x4d33 (Bench.Host true [])
     = (Bench.Host true [], inr (Some tt))
  /\ snd (acking_program ["DCM130.py"; "--debug"]%string (plugged []))
     = inr tt
  /\ exit_status (snd (acking_program ["DCM130.py"; "--debug"]%string
                                      (plugged [])))
     = 0
  /\ exists delta,
      trace (fst (acking_program ["DCM130.py"; "--debug"]%string (plugged [])))
      = trace (plugged []) ++ delta
      /\ List.length (transfers delta) = 30%nat
      /\ (slept delta == 106 # 100)%Q.
Proof.
  split; [exact bench_acking_acked|split; [reflexivity|]].
  apply (program_completes Bench.host Bench.handle
           Bench.openByVendorIDAndProductID Bench.acking_controlTransfer
           bench_acking_acked ["DCM130.py"; "--debug"]%string (plugged [])
           (Bench.Host true []) tt).
  reflexivity.
Defined.
